(** * FutureTrailingStopOrderOnExtendedHoursRegressionAlgorithm

    A shallow embedding of
    [Algorithm.Python/FutureTrailingStopOrderOnExtendedHoursRegressionAlgorithm.py].

    The script is a [QCAlgorithm] subclass with three methods.  Everything it
    does is a call into the host framework (the engine), a read or a store of
    its one attribute [sp_500_e_mini], or a [raise].  The engine is not part
    of the script: it is taken as an interface ([HostFramework]) of which
    nothing is assumed.  Every method of the script is a computation in a
    state-and-exception monad over a [World]: the strategy object, the engine
    state, and the history of engine calls and attribute stores.  A run is
    the engine calling [initialize] once on a fresh object and then the
    callbacks in any order, with arbitrary engine activity in between.

    Two things are taken from the way the script uses the engine.  A call
    into the engine is one transition of the engine state: the callbacks of
    the script are invoked from the engine's loop, as steps of the run, not
    from inside such a call.  And a call into the engine returns: the
    failures of the engine itself are not the script's. *)

From Stdlib Require Import ZArith List String Bool Lia.
Import ListNotations.
Open Scope string_scope.
Open Scope list_scope.
Open Scope Z_scope.

(** ** Declarations of the host framework used by name in the script *)

(** [Resolution]: the engine's enumeration of bar sizes; the script uses
    [Resolution.MINUTE]. *)
Inductive Resolution : Type := TICK | SECOND | MINUTE | HOUR | DAILY.

(** [OrderStatus]: the engine's enumeration of order states; the script
    compares an event's status against [OrderStatus.FILLED]. *)
Inductive OrderStatus : Type :=
| NEW | SUBMITTED | PARTIALLY_FILLED | FILLED | CANCELED
| NONE | INVALID | CANCEL_PENDING | UPDATE_SUBMITTED.

(** Python's [==] on two members of the enumeration. *)
Definition OrderStatus_eqb (a b : OrderStatus) : bool :=
  match a, b with
  | NEW, NEW | SUBMITTED, SUBMITTED | PARTIALLY_FILLED, PARTIALLY_FILLED
  | FILLED, FILLED | CANCELED, CANCELED | NONE, NONE | INVALID, INVALID
  | CANCEL_PENDING, CANCEL_PENDING | UPDATE_SUBMITTED, UPDATE_SUBMITTED => true
  | _, _ => false
  end.

(** The ticker constants of [Futures.Indices]; the script names
    [Futures.Indices.SP_500_E_MINI]. *)
Module Futures.
Inductive Indices : Type := SP_500_E_MINI | OTHER_INDEX (ticker : string).
End Futures.

(** [self.date_rules.every_day()] and [self.time_rules.at(hour, minute)]
    build the rule objects handed to [self.schedule.on]. *)
Inductive DateRule : Type := every_day.
Inductive TimeRule : Type := at_ (hour minute : Z).

(** A bound method of the strategy handed to the engine as a callback.  The
    script hands over one: [self.make_market_and_stop_market_order]. *)
Inductive BoundMethod : Type := self_make_market_and_stop_market_order.

(** The exceptions the script can raise: the [Exception] of its [raise]
    statement, and the [AttributeError] Python raises on [None.mapped]. *)
Inductive PyExn : Type :=
| Exception (msg : string)
| AttributeError (msg : string).

(** The engine as the script sees it.  [Symbol], [Future] and [OrderEvent]
    are engine objects the script only passes around and reads properties
    of; [HostState] is whatever the engine keeps (clock, market data, order
    book, schedule).  Each method the script calls is a transition of the
    engine state, with the value it returns where the script uses it. *)
Class HostFramework : Type := {
  Symbol : Type;
  Future : Type;
  OrderEvent : Type;
  HostState : Type;
  (** [future.mapped]: the contract the continuous future is mapped to now *)
  Future_mapped : Future -> HostState -> Symbol;
  (** [order_event.Symbol] and [order_event.status] *)
  OrderEvent_Symbol : OrderEvent -> Symbol;
  OrderEvent_status : OrderEvent -> OrderStatus;
  QCAlgorithm_set_start_date : Z -> Z -> Z -> HostState -> HostState;
  QCAlgorithm_set_end_date : Z -> Z -> Z -> HostState -> HostState;
  QCAlgorithm_add_future :
    Futures.Indices -> Resolution -> bool -> HostState -> Future * HostState;
  QCAlgorithm_schedule_on :
    DateRule -> TimeRule -> BoundMethod -> HostState -> HostState;
  QCAlgorithm_market_order : Symbol -> Z -> HostState -> HostState;
  QCAlgorithm_trailing_stop_order :
    Symbol -> Z -> Z -> bool -> HostState -> HostState;
  (** a query: it answers from the engine state and leaves it as it is *)
  QCAlgorithm_is_market_open : Symbol -> HostState -> bool
}.

Section Algorithm.

Context {HF : HostFramework}.

(** The calls the script makes into the engine, with their arguments, in the
    order they are made. *)
Inductive HostCall : Type :=
| SetStartDate (year month day : Z)
| SetEndDate (year month day : Z)
| AddFuture (ticker : Futures.Indices) (resolution : Resolution)
            (extended_market_hours : bool)
| ScheduleOn (date_rule : DateRule) (time_rule : TimeRule)
             (callback : BoundMethod)
| MarketOrder (symbol : Symbol) (quantity : Z)
| TrailingStopOrder (symbol : Symbol) (quantity : Z) (trailing_amount : Z)
                    (trailing_as_percentage : bool)
| IsMarketOpen (symbol : Symbol).

(** The state the strategy object owns: the attribute [sp_500_e_mini]
    ([None] is Python's [None], the class-level default of line 23). *)
Record Strategy : Type := { sp_500_e_mini : option Future }.

(** [self] is the strategy object, [host] the engine, [calls] the engine
    calls made so far (oldest first), [stores] the values stored into
    [self.sp_500_e_mini] so far (oldest first).  The last two are history
    only: no computation reads them. *)
Record World : Type := {
  self : Strategy;
  host : HostState;
  calls : list HostCall;
  stores : list Future
}.

(** ** A state-and-exception monad *)

Inductive Outcome (A : Type) : Type :=
| Returned (a : A) (w : World)
| Raised (e : PyExn) (w : World).
Arguments Returned {A} a w.
Arguments Raised {A} e w.

Definition M (A : Type) : Type := World -> Outcome A.

Definition ret {A : Type} (a : A) : M A := fun w => Returned a w.

Definition bind {A B : Type} (m : M A) (k : A -> M B) : M B :=
  fun w =>
    match m w with
    | Returned a w' => k a w'
    | Raised e w' => Raised e w'
    end.

Definition raise {A : Type} (e : PyExn) : M A := fun w => Raised e w.

Notation "x <- m ;; k" := (bind m (fun x => k))
  (at level 61, m at next level, right associativity).
Notation "m ;; k" := (bind m (fun _ => k))
  (at level 61, right associativity).

(** The world an outcome ends in, whether it is an exception, and which. *)
Definition world_of {A : Type} (o : Outcome A) : World :=
  match o with Returned _ w => w | Raised _ w => w end.

Definition raises {A : Type} (o : Outcome A) : bool :=
  match o with Returned _ _ => false | Raised _ _ => true end.

Definition exception_of {A : Type} (o : Outcome A) : option PyExn :=
  match o with Returned _ _ => None | Raised e _ => Some e end.

(** [w] with the engine in state [h], and [w] with one more call logged. *)
Definition with_host (h : HostState) (w : World) : World :=
  {| self := self w; host := h; calls := calls w; stores := stores w |}.

Definition logged (c : HostCall) (w : World) : World :=
  {| self := self w; host := host w; calls := calls w ++ [c];
     stores := stores w |}.

(** An engine call: logged, then the engine moves. *)
Definition host_call (c : HostCall) (move : HostState -> HostState) : M unit :=
  fun w => Returned tt (with_host (move (host w)) (logged c w)).

(** ** The engine's methods, as the script calls them *)

Definition set_start_date (year month day : Z) : M unit :=
  host_call (SetStartDate year month day)
            (QCAlgorithm_set_start_date year month day).

Definition set_end_date (year month day : Z) : M unit :=
  host_call (SetEndDate year month day)
            (QCAlgorithm_set_end_date year month day).

Definition add_future (ticker : Futures.Indices) (resolution : Resolution)
    (extended_market_hours : bool) : M Future :=
  fun w =>
    let (future, h) :=
      QCAlgorithm_add_future ticker resolution extended_market_hours (host w) in
    Returned future
      (with_host h
         (logged (AddFuture ticker resolution extended_market_hours) w)).

Definition schedule_on (date_rule : DateRule) (time_rule : TimeRule)
    (callback : BoundMethod) : M unit :=
  host_call (ScheduleOn date_rule time_rule callback)
            (QCAlgorithm_schedule_on date_rule time_rule callback).

Definition market_order (symbol : Symbol) (quantity : Z) : M unit :=
  host_call (MarketOrder symbol quantity)
            (QCAlgorithm_market_order symbol quantity).

Definition trailing_stop_order (symbol : Symbol) (quantity trailing_amount : Z)
    (trailing_as_percentage : bool) : M unit :=
  host_call
    (TrailingStopOrder symbol quantity trailing_amount trailing_as_percentage)
    (QCAlgorithm_trailing_stop_order symbol quantity trailing_amount
                                     trailing_as_percentage).

Definition is_market_open (symbol : Symbol) : M bool :=
  fun w =>
    Returned (QCAlgorithm_is_market_open symbol (host w))
             (logged (IsMarketOpen symbol) w).

(** ** Attribute access on [self] *)

(** [self.sp_500_e_mini] *)
Definition get_sp_500_e_mini : M (option Future) :=
  fun w => Returned (sp_500_e_mini (self w)) w.

(** [self.sp_500_e_mini = future] *)
Definition set_sp_500_e_mini (future : Future) : M unit :=
  fun w =>
    Returned tt {| self := {| sp_500_e_mini := Some future |}; host := host w;
                   calls := calls w; stores := stores w ++ [future] |}.

(** [obj.mapped]: the engine's property on a [Future], an [AttributeError]
    on [None]. *)
Definition mapped (obj : option Future) : M Symbol :=
  match obj with
  | Some future => fun w => Returned (Future_mapped future (host w)) w
  | None => raise (AttributeError "'NoneType' object has no attribute 'mapped'")
  end.

(** ** The script *)

(** Lines 26-34. *)
Definition initialize : M unit :=
  set_start_date 2013 10 6 ;;
  set_end_date 2013 10 12 ;;
  future <- add_future Futures.SP_500_E_MINI MINUTE true ;;
  set_sp_500_e_mini future ;;
  schedule_on every_day (at_ 19 0) self_make_market_and_stop_market_order.

(** Lines 37-39. *)
Definition make_market_and_stop_market_order : M unit :=
  future <- get_sp_500_e_mini ;;
  symbol <- mapped future ;;
  market_order symbol 1 ;;
  future <- get_sp_500_e_mini ;;
  symbol <- mapped future ;;
  trailing_stop_order symbol (-1) 5 false.

(** Lines 42-44.  Python's [and] evaluates its right operand only when the
    left one is true; the right operand here is a property read and a
    comparison, with no effect. *)
Definition on_order_event (order_event : OrderEvent) : M unit :=
  market_open <- is_market_open (OrderEvent_Symbol order_event) ;;
  if market_open && OrderStatus_eqb (OrderEvent_status order_event) FILLED
  then raise (Exception "Order filled during regular hours.")
  else ret tt.

(** ** Runs *)

(** The object the engine instantiates: no instance attribute yet, so
    [self.sp_500_e_mini] is the class-level [None]; nothing called or stored. *)
Definition fresh (h : HostState) : World :=
  {| self := {| sp_500_e_mini := None |}; host := h; calls := []; stores := [] |}.

(** What the engine can invoke on the strategy after [initialize]: a
    callback it was handed, or [on_order_event] with an order event. *)
Inductive Callback : Type :=
| Scheduled (m : BoundMethod)
| OrderNotification (order_event : OrderEvent).

Definition invoke (m : BoundMethod) : M unit :=
  match m with
  | self_make_market_and_stop_market_order => make_market_and_stop_market_order
  end.

Definition dispatch (c : Callback) : M unit :=
  match c with
  | Scheduled m => invoke m
  | OrderNotification order_event => on_order_event order_event
  end.

(** The engine's own activity between two callbacks (time passing, data
    arriving, orders filling, contracts rolling): any change of its state. *)
Definition host_activity (k : HostState -> HostState) : M unit :=
  fun w => Returned tt (with_host (k (host w)) w).

(** One step of a run: the engine moves, or it invokes a callback. *)
Inductive Step : Type :=
| Activity (k : HostState -> HostState)
| Invoke (c : Callback).

Definition step (s : Step) : M unit :=
  match s with
  | Activity k => host_activity k
  | Invoke c => dispatch c
  end.

(** The callbacks of a run, in order; an exception ends the run. *)
Fixpoint run_callbacks (steps : list Step) : M unit :=
  match steps with
  | [] => ret tt
  | s :: rest => step s ;; run_callbacks rest
  end.

(** A run of the strategy on an engine starting in state [h]. *)
Definition run (steps : list Step) (h : HostState) : Outcome unit :=
  (initialize ;; run_callbacks steps) (fresh h).

(** The invariant of a run: the attribute holds the future [initialize]
    stored, and that store is the only one. *)
Definition subscribed_to (future : Future) (w : World) : Prop :=
  sp_500_e_mini (self w) = Some future /\ stores w = [future].

(** The trailing-stop orders among some engine calls. *)
Definition is_trailing_stop_order (c : HostCall) : bool :=
  match c with TrailingStopOrder _ _ _ _ => true | _ => false end.

(** ** Reading a call history *)

Definition is_market_order (c : HostCall) : bool :=
  match c with MarketOrder _ _ => true | _ => false end.

(** The calls of [initialize]: dates, subscription, schedule. *)
Definition is_setup_call (c : HostCall) : bool :=
  match c with
  | SetStartDate _ _ _ | SetEndDate _ _ _ | AddFuture _ _ _
  | ScheduleOn _ _ _ => true
  | _ => false
  end.

(** The steps of a run that fire the scheduled action, and those that
    deliver an order event with status FILLED. *)
Definition is_scheduled (s : Step) : bool :=
  match s with Invoke (Scheduled _) => true | _ => false end.

Definition delivers_fill (s : Step) : bool :=
  match s with
  | Invoke (OrderNotification order_event) =>
      OrderStatus_eqb (OrderEvent_status order_event) FILLED
  | _ => false
  end.

(** An order as the script writes it (lines 38-39) for the future it
    holds: quantity 1 at market, or quantity -1 with a trailing stop of 5,
    not a percentage; on a contract that future is mapped to in some state of
    the engine.  Calls that are no orders pass. *)
Definition order_of_script (future : Future) (c : HostCall) : Prop :=
  match c with
  | MarketOrder symbol quantity =>
      quantity = 1 /\ exists h, symbol = Future_mapped future h
  | TrailingStopOrder symbol quantity trailing_amount trailing_as_percentage =>
      quantity = -1 /\ trailing_amount = 5 /\
      trailing_as_percentage = false /\
      exists h, symbol = Future_mapped future h
  | _ => True
  end.

(** The histories the two callbacks can write, one after the other: the
    pair of orders of the scheduled action, the query of the handler. *)
Inductive callback_log (future : Future) : list HostCall -> Prop :=
| log_nil : callback_log future []
| log_orders h rest :
    callback_log future rest ->
    callback_log future
      (MarketOrder (Future_mapped future h) 1 ::
       TrailingStopOrder
         (Future_mapped future
            (QCAlgorithm_market_order (Future_mapped future h) 1 h))
         (-1) 5 false :: rest)
| log_query symbol rest :
    callback_log future rest ->
    callback_log future (IsMarketOpen symbol :: rest).

End Algorithm.

Arguments Returned {HF A} a w.
Arguments Raised {HF A} e w.

(** ** A small engine to run the script on

    One concrete [HostFramework]: a clock in minutes since midnight, the
    regular session from 09:30 to 16:00, one front contract the continuous
    future is mapped to, and a count of the orders received.  Order events
    carry an order id and a fill quantity next to their symbol and status. *)
Module Engine.

Record Event : Type := {
  event_symbol : string;
  event_status : OrderStatus;
  event_order_id : Z;
  event_fill_quantity : Z
}.

Record State : Type := {
  minute_of_day : Z;
  front_contract : string;
  orders_received : Z
}.

Definition receive_order (s : State) : State :=
  {| minute_of_day := minute_of_day s; front_contract := front_contract s;
     orders_received := orders_received s + 1 |}.

Definition regular_session (s : State) : bool :=
  (570 <=? minute_of_day s) && (minute_of_day s <? 960).

Definition at_minute (m : Z) (s : State) : State :=
  {| minute_of_day := m; front_contract := front_contract s;
     orders_received := orders_received s |}.

#[export] Instance engine : HostFramework := {|
  Symbol := string;
  Future := Futures.Indices;
  OrderEvent := Event;
  HostState := State;
  Future_mapped := fun _ s => front_contract s;
  OrderEvent_Symbol := event_symbol;
  OrderEvent_status := event_status;
  QCAlgorithm_set_start_date := fun _ _ _ s => s;
  QCAlgorithm_set_end_date := fun _ _ _ s => s;
  QCAlgorithm_add_future := fun ticker _ _ s => (ticker, s);
  QCAlgorithm_schedule_on := fun _ _ _ s => s;
  QCAlgorithm_market_order := fun _ _ s => receive_order s;
  QCAlgorithm_trailing_stop_order := fun _ _ _ _ s => receive_order s;
  QCAlgorithm_is_market_open := fun _ s => regular_session s
|}.

(** Sunday 2013-10-06, midnight, mapped to the December 2013 contract. *)
Definition start : State :=
  {| minute_of_day := 0; front_contract := "ESZ13"; orders_received := 0 |}.

Definition fill (symbol : string) (id quantity : Z) : Event :=
  {| event_symbol := symbol; event_status := FILLED;
     event_order_id := id; event_fill_quantity := quantity |}.

Definition submission (symbol : string) (id : Z) : Event :=
  {| event_symbol := symbol; event_status := SUBMITTED;
     event_order_id := id; event_fill_quantity := 0 |}.

(** Until 19:00 of the first day: the scheduled action, then the fill of
    its market order, in extended hours. *)
Definition first_evening : list Step :=
  [ Activity (at_minute 1140);
    Invoke (Scheduled self_make_market_and_stop_market_order);
    Invoke (OrderNotification (submission "ESZ13" 1));
    Invoke (OrderNotification (fill "ESZ13" 1 1)) ].

(** The next morning at 10:00, in the regular session. *)
Definition next_morning : list Step :=
  first_evening ++ [ Activity (at_minute 600) ].

(** The worlds these two runs end in. *)
Definition evening_world : World := world_of (run first_evening start).
Definition morning_world : World := world_of (run next_morning start).

(** The first day up to the 19:00 trigger, and the world it is fired in. *)
Definition first_trigger : list Step := [ Activity (at_minute 1140) ].
Definition trigger_world : World := world_of (run first_trigger start).

(** The trailing-stop order filling in the regular session of the next
    morning, with the rest of that day still to come. *)
Definition regular_hours_fill : list Step :=
  next_morning ++
  [ Invoke (OrderNotification (fill "ESZ13" 2 (-1)));
    Activity (at_minute 1140);
    Invoke (Scheduled self_make_market_and_stop_market_order) ].
Definition aborted_world : World := world_of (run regular_hours_fill start).

(** An evening on which the market order is acknowledged and nothing
    fills. *)
Definition quiet_evening : list Step :=
  [ Activity (at_minute 1140);
    Invoke (Scheduled self_make_market_and_stop_market_order);
    Invoke (OrderNotification (submission "ESZ13" 1));
    Invoke (OrderNotification (submission "ESZ13" 2)) ].

End Engine.


(** * Properties *)

Section Properties.

Context {HF : HostFramework}.

Implicit Types (w : World) (h : HostState) (steps : list Step).

(** ** The three methods, evaluated *)

Lemma OrderStatus_eqb_eq (a b : OrderStatus) :
  OrderStatus_eqb a b = true <-> a = b.
Proof.
  split.
  - destruct a, b; simpl; intros E; solve [reflexivity | discriminate E].
  - intros ->. destruct b; reflexivity.
Qed.

Lemma initialize_eq w :
  let subscription :=
    QCAlgorithm_add_future Futures.SP_500_E_MINI MINUTE true
      (QCAlgorithm_set_end_date 2013 10 12
         (QCAlgorithm_set_start_date 2013 10 6 (host w))) in
  initialize w =
  Returned tt
    {| self := {| sp_500_e_mini := Some (fst subscription) |};
       host := QCAlgorithm_schedule_on every_day (at_ 19 0)
                 self_make_market_and_stop_market_order (snd subscription);
       calls := calls w ++
                [ SetStartDate 2013 10 6; SetEndDate 2013 10 12;
                  AddFuture Futures.SP_500_E_MINI MINUTE true;
                  ScheduleOn every_day (at_ 19 0)
                             self_make_market_and_stop_market_order ];
       stores := stores w ++ [fst subscription] |}.
Proof.
  unfold initialize, bind, set_start_date, set_end_date, add_future,
    set_sp_500_e_mini, schedule_on, host_call, with_host, logged; simpl.
  destruct (QCAlgorithm_add_future _ _ _ _) as [future h']; simpl.
  rewrite <- !app_assoc. reflexivity.
Qed.

Lemma make_market_and_stop_market_order_eq w (future : Future) :
  sp_500_e_mini (self w) = Some future ->
  let first := Future_mapped future (host w) in
  let h1 := QCAlgorithm_market_order first 1 (host w) in
  let second := Future_mapped future h1 in
  make_market_and_stop_market_order w =
  Returned tt
    {| self := self w;
       host := QCAlgorithm_trailing_stop_order second (-1) 5 false h1;
       calls := calls w ++ [ MarketOrder first 1;
                             TrailingStopOrder second (-1) 5 false ];
       stores := stores w |}.
Proof.
  intros E.
  unfold make_market_and_stop_market_order, bind, get_sp_500_e_mini,
    market_order, trailing_stop_order, host_call, with_host, logged; simpl.
  rewrite E; simpl. rewrite E; simpl.
  rewrite <- app_assoc. reflexivity.
Qed.

Lemma make_market_and_stop_market_order_None w :
  sp_500_e_mini (self w) = None ->
  make_market_and_stop_market_order w =
  Raised (AttributeError "'NoneType' object has no attribute 'mapped'") w.
Proof.
  intros E.
  unfold make_market_and_stop_market_order, bind, get_sp_500_e_mini.
  rewrite E. reflexivity.
Qed.

Lemma on_order_event_eq (order_event : OrderEvent) w :
  on_order_event order_event w =
  if QCAlgorithm_is_market_open (OrderEvent_Symbol order_event) (host w)
     && OrderStatus_eqb (OrderEvent_status order_event) FILLED
  then Raised (Exception "Order filled during regular hours.")
              (logged (IsMarketOpen (OrderEvent_Symbol order_event)) w)
  else Returned tt (logged (IsMarketOpen (OrderEvent_Symbol order_event)) w).
Proof.
  unfold on_order_event, bind, is_market_open.
  destruct (_ && _); reflexivity.
Qed.

(** ** What the callbacks leave alone *)

(** No callback touches the strategy object or stores into its attribute,
    however it ends. *)
Lemma dispatch_frame (c : Callback) w :
  self (world_of (dispatch c w)) = self w /\
  stores (world_of (dispatch c w)) = stores w.
Proof.
  destruct c as [[] | order_event]; simpl.
  - destruct (sp_500_e_mini (self w)) as [future |] eqn:E.
    + rewrite (make_market_and_stop_market_order_eq w future E). simpl. tauto.
    + rewrite (make_market_and_stop_market_order_None w E). simpl. tauto.
  - rewrite on_order_event_eq. destruct (_ && _); simpl; tauto.
Qed.

Lemma step_frame (s : Step) w :
  self (world_of (step s w)) = self w /\
  stores (world_of (step s w)) = stores w.
Proof.
  destruct s as [k | c]; simpl.
  - tauto.
  - apply dispatch_frame.
Qed.

Lemma run_callbacks_frame steps : forall w,
  self (world_of (run_callbacks steps w)) = self w /\
  stores (world_of (run_callbacks steps w)) = stores w.
Proof.
  induction steps as [| s rest IH]; intros w; simpl.
  - tauto.
  - unfold bind. destruct (step_frame s w) as [Hself Hstores].
    destruct (step s w) as [[] w1 | e w1]; simpl in *.
    + destruct (IH w1) as [IHself IHstores]. split; congruence.
    + tauto.
Qed.

(** ** Runs, piece by piece *)

Lemma run_eq steps h :
  run steps h = run_callbacks steps (world_of (initialize (fresh h))).
Proof.
  unfold run, bind. rewrite (initialize_eq (fresh h)). reflexivity.
Qed.

Lemma run_callbacks_app (before after : list Step) : forall w,
  run_callbacks (before ++ after) w =
  match run_callbacks before w with
  | Returned _ w' => run_callbacks after w'
  | Raised e w' => Raised e w'
  end.
Proof.
  induction before as [| s rest IH]; intros w; simpl.
  - reflexivity.
  - unfold bind. destruct (step s w) as [[] w1 | e w1].
    + apply IH.
    + reflexivity.
Qed.

Lemma run_app (before after : list Step) h :
  run (before ++ after) h =
  match run before h with
  | Returned _ w' => run_callbacks after w'
  | Raised e w' => Raised e w'
  end.
Proof. rewrite !run_eq. apply run_callbacks_app. Qed.

Lemma initialize_subscribes h :
  exists future, subscribed_to future (world_of (initialize (fresh h))).
Proof.
  rewrite (initialize_eq (fresh h)); simpl.
  eexists. split; reflexivity.
Qed.

Lemma run_subscribed h :
  exists future, forall steps, subscribed_to future (world_of (run steps h)).
Proof.
  destruct (initialize_subscribes h) as [future [Hsp Hst]].
  exists future. intros steps. rewrite run_eq.
  destruct (run_callbacks_frame steps (world_of (initialize (fresh h))))
    as [Hself Hstores].
  split; congruence.
Qed.

(** A run of callbacks from a subscribed strategy that ends in an exception
    ends in [on_order_event], all callbacks before it having returned. *)
Lemma run_callbacks_raised steps : forall w (future : Future) e w',
  sp_500_e_mini (self w) = Some future ->
  run_callbacks steps w = Raised e w' ->
  exists before order_event after w0,
    steps = before ++ Invoke (OrderNotification order_event) :: after /\
    run_callbacks before w = Returned tt w0 /\
    on_order_event order_event w0 = Raised e w'.
Proof.
  induction steps as [| s rest IH]; intros w future e w' Hsp Hrun.
  - discriminate Hrun.
  - simpl in Hrun. unfold bind in Hrun.
    destruct (step_frame s w) as [Hself _].
    destruct (step s w) as [[] w1 | e1 w1] eqn:Hstep; simpl in Hself.
    + assert (Hsp1 : sp_500_e_mini (self w1) = Some future) by congruence.
      destruct (IH w1 future e w' Hsp1 Hrun)
        as (before & order_event & after & w0 & -> & Hbefore & Hraise).
      exists (s :: before), order_event, after, w0.
      split; [reflexivity | split; [| exact Hraise]].
      simpl. unfold bind. rewrite Hstep. exact Hbefore.
    + injection Hrun as -> ->.
      destruct s as [k | [[] | order_event]]; simpl in Hstep.
      * discriminate Hstep.
      * rewrite (make_market_and_stop_market_order_eq w future Hsp) in Hstep.
        discriminate Hstep.
      * exists [], order_event, rest, w.
        split; [reflexivity | split; [reflexivity | exact Hstep]].
Qed.

(** ** The order-event handler *)

(** C1: an order event whose symbol's market is open when the handler runs
    and whose status is FILLED makes the handler raise
    [Exception("Order filled during regular hours.")]; a run in which such an
    event is delivered ends there, in that exception, whatever was to
    follow. *)
Theorem on_order_event_open_filled_raises (order_event : OrderEvent) w :
  QCAlgorithm_is_market_open (OrderEvent_Symbol order_event) (host w) = true ->
  OrderEvent_status order_event = FILLED ->
  on_order_event order_event w =
    Raised (Exception "Order filled during regular hours.")
           (logged (IsMarketOpen (OrderEvent_Symbol order_event)) w) /\
  forall h before after,
    run before h = Returned tt w ->
    run (before ++ Invoke (OrderNotification order_event) :: after) h =
    Raised (Exception "Order filled during regular hours.")
           (logged (IsMarketOpen (OrderEvent_Symbol order_event)) w).
Proof.
  intros Hopen Hfilled.
  assert (Hraise : on_order_event order_event w =
                   Raised (Exception "Order filled during regular hours.")
                     (logged (IsMarketOpen (OrderEvent_Symbol order_event)) w)).
  { rewrite on_order_event_eq, Hopen, Hfilled. reflexivity. }
  split; [exact Hraise |].
  intros h before after Hbefore.
  rewrite run_app, Hbefore. simpl. unfold bind. rewrite Hraise. reflexivity.
Qed.

(** C2: an order event delivered while the market of its symbol is closed
    makes the handler return without raising, whatever the event's status;
    the run goes on with the next callback. *)
Theorem on_order_event_market_closed_returns (order_event : OrderEvent) w :
  QCAlgorithm_is_market_open (OrderEvent_Symbol order_event) (host w) = false ->
  on_order_event order_event w =
    Returned tt (logged (IsMarketOpen (OrderEvent_Symbol order_event)) w) /\
  raises (on_order_event order_event w) = false /\
  forall h before after,
    run before h = Returned tt w ->
    run (before ++ Invoke (OrderNotification order_event) :: after) h =
    run_callbacks after
      (logged (IsMarketOpen (OrderEvent_Symbol order_event)) w).
Proof.
  intros Hclosed.
  assert (Hret : on_order_event order_event w =
                 Returned tt
                   (logged (IsMarketOpen (OrderEvent_Symbol order_event)) w)).
  { rewrite on_order_event_eq, Hclosed. reflexivity. }
  split; [exact Hret | split].
  - rewrite Hret. reflexivity.
  - intros h before after Hbefore.
    rewrite run_app, Hbefore. simpl. unfold bind. rewrite Hret. reflexivity.
Qed.

(** C8: an order event whose status is not FILLED makes the handler return
    without raising, whether the market of its symbol is open or not. *)
Theorem on_order_event_not_filled_returns (order_event : OrderEvent) w :
  OrderEvent_status order_event <> FILLED ->
  on_order_event order_event w =
    Returned tt (logged (IsMarketOpen (OrderEvent_Symbol order_event)) w) /\
  raises (on_order_event order_event w) = false.
Proof.
  intros Hstatus.
  assert (Hneq : OrderStatus_eqb (OrderEvent_status order_event) FILLED = false).
  { destruct (OrderStatus_eqb _ _) eqn:E; [| reflexivity].
    apply OrderStatus_eqb_eq in E. contradiction. }
  assert (Hret : on_order_event order_event w =
                 Returned tt
                   (logged (IsMarketOpen (OrderEvent_Symbol order_event)) w)).
  { rewrite on_order_event_eq, Hneq, andb_false_r. reflexivity. }
  split; [exact Hret |]. rewrite Hret. reflexivity.
Qed.

(** C10: two order events that agree on whether the market of their symbol
    is open when the handler runs and on their status get the same outcome
    from the handler: both raise, and the same exception, or none does.
    Nothing else of the events or of the worlds is assumed equal. *)
Theorem on_order_event_outcome_determined
    (order_event1 order_event2 : OrderEvent) w1 w2 :
  QCAlgorithm_is_market_open (OrderEvent_Symbol order_event1) (host w1) =
  QCAlgorithm_is_market_open (OrderEvent_Symbol order_event2) (host w2) ->
  OrderEvent_status order_event1 = OrderEvent_status order_event2 ->
  raises (on_order_event order_event1 w1) =
  raises (on_order_event order_event2 w2) /\
  exception_of (on_order_event order_event1 w1) =
  exception_of (on_order_event order_event2 w2).
Proof.
  intros Hopen Hstatus.
  rewrite !on_order_event_eq, Hopen, Hstatus.
  destruct (_ && _); split; reflexivity.
Qed.

(** ** The setup operation *)

(** C4: [initialize] returns, having made four engine calls and no other:
    start date 2013-10-06, end date 2013-10-12, one subscription (the SP 500
    E-mini future at minute resolution with extended market hours on), one
    schedule entry (every day, at 19:00, the scheduled action); the future
    the subscription returned is stored in [sp_500_e_mini]. *)
Theorem initialize_configures w :
  exists (future : Future) h',
    QCAlgorithm_add_future Futures.SP_500_E_MINI MINUTE true
      (QCAlgorithm_set_end_date 2013 10 12
         (QCAlgorithm_set_start_date 2013 10 6 (host w))) = (future, h') /\
    initialize w =
    Returned tt
      {| self := {| sp_500_e_mini := Some future |};
         host := QCAlgorithm_schedule_on every_day (at_ 19 0)
                   self_make_market_and_stop_market_order h';
         calls := calls w ++
                  [ SetStartDate 2013 10 6; SetEndDate 2013 10 12;
                    AddFuture Futures.SP_500_E_MINI MINUTE true;
                    ScheduleOn every_day (at_ 19 0)
                               self_make_market_and_stop_market_order ];
         stores := stores w ++ [future] |}.
Proof.
  rewrite initialize_eq.
  destruct (QCAlgorithm_add_future _ _ _ _) as [future h'].
  exists future, h'. split; reflexivity.
Qed.

(** ** The scheduled action *)

Lemma run_returned_subscribed h steps w :
  run steps h = Returned tt w ->
  exists future : Future, sp_500_e_mini (self w) = Some future.
Proof.
  intros Hrun. destruct (run_subscribed h) as [future Hinv].
  exists future. destruct (Hinv steps) as [Hsp _].
  rewrite Hrun in Hsp. exact Hsp.
Qed.

(** C3: wherever a run has got to, an invocation of the scheduled action
    returns, having submitted exactly two orders to the engine and done
    nothing else: a market order of quantity 1 on the contract the
    subscribed future is mapped to, then a trailing-stop order of quantity
    -1 on the contract it is mapped to after that.  The engine has gone
    through [market_order], then [trailing_stop_order]; the two calls are
    the only ones added to the history; the strategy is as it was. *)
Theorem scheduled_action_submits_two_orders h steps w :
  run steps h = Returned tt w ->
  exists future : Future,
    sp_500_e_mini (self w) = Some future /\
    let first := Future_mapped future (host w) in
    let h1 := QCAlgorithm_market_order first 1 (host w) in
    let second := Future_mapped future h1 in
    let w' :=
      {| self := self w;
         host := QCAlgorithm_trailing_stop_order second (-1) 5 false h1;
         calls := calls w ++ [ MarketOrder first 1;
                               TrailingStopOrder second (-1) 5 false ];
         stores := stores w |} in
    make_market_and_stop_market_order w = Returned tt w' /\
    run (steps ++ [Invoke (Scheduled self_make_market_and_stop_market_order)]) h
      = Returned tt w'.
Proof.
  intros Hrun.
  destruct (run_returned_subscribed h steps w Hrun) as [future Hsp].
  pose proof (make_market_and_stop_market_order_eq w future Hsp) as Hact.
  exists future. split; [exact Hsp |].
  cbv zeta in Hact |- *. split; [exact Hact |].
  rewrite run_app, Hrun. simpl. unfold bind. rewrite Hact. reflexivity.
Qed.

(** C7: the one trailing-stop order an invocation of the scheduled action
    submits has trailing amount 5 and its trailing-as-percentage flag
    false: the engine goes through [trailing_stop_order] with these two
    arguments, after the market order, and that call is the only
    trailing-stop call the invocation adds to the history. *)
Theorem trailing_stop_order_fixed_offset h steps w :
  run steps h = Returned tt w ->
  exists (future : Future) (symbol : Symbol),
    sp_500_e_mini (self w) = Some future /\
    let h1 :=
      QCAlgorithm_market_order (Future_mapped future (host w)) 1 (host w) in
    let new := [ MarketOrder (Future_mapped future (host w)) 1;
                 TrailingStopOrder symbol (-1) 5 false ] in
    symbol = Future_mapped future h1 /\
    run (steps ++ [Invoke (Scheduled self_make_market_and_stop_market_order)]) h
      = Returned tt
          {| self := self w;
             host := QCAlgorithm_trailing_stop_order symbol (-1) 5 false h1;
             calls := calls w ++ new;
             stores := stores w |} /\
    filter is_trailing_stop_order new =
      [ TrailingStopOrder symbol (-1) 5 false ].
Proof.
  intros Hrun.
  destruct (run_returned_subscribed h steps w Hrun) as [future Hsp].
  pose proof (make_market_and_stop_market_order_eq w future Hsp) as Hact.
  cbv zeta in Hact.
  exists future, (Future_mapped future
                    (QCAlgorithm_market_order (Future_mapped future (host w)) 1
                                              (host w))).
  split; [exact Hsp |]. cbv zeta. split; [reflexivity | split].
  - rewrite run_app, Hrun. simpl. unfold bind. rewrite Hact. reflexivity.
  - reflexivity.
Qed.

(** ** The strategy's own state *)

(** C5: the strategy's state is its one attribute [sp_500_e_mini]; no
    callback, scheduled action or order-event handler, returning or raising,
    changes it or stores into it; through a whole run it is what
    [initialize] left. *)
Theorem callbacks_leave_strategy_state :
  (forall s : Strategy, s = {| sp_500_e_mini := sp_500_e_mini s |}) /\
  (forall (c : Callback) w,
     self (world_of (dispatch c w)) = self w /\
     stores (world_of (dispatch c w)) = stores w) /\
  (forall h steps,
     self (world_of (run steps h)) = self (world_of (initialize (fresh h))) /\
     stores (world_of (run steps h)) =
     stores (world_of (initialize (fresh h)))).
Proof.
  split; [| split].
  - intros []. reflexivity.
  - apply dispatch_frame.
  - intros h steps. rewrite run_eq. apply run_callbacks_frame.
Qed.


(** ** The error path *)

(** C6: a run that ends in an exception ends in the handler's
    [Exception("Order filled during regular hours.")]: [initialize] raises
    nothing, every callback before the raising one returned, the raising one
    is [on_order_event] on a FILLED event with its market open, and it left
    the strategy's state and the engine as they were, having made its one
    market-open query and no other call. *)
Theorem on_order_event_is_the_single_error_path h steps e w :
  run steps h = Raised e w ->
  (forall w0, raises (initialize w0) = false) /\
  e = Exception "Order filled during regular hours." /\
  exists before order_event after w0,
    steps = before ++ Invoke (OrderNotification order_event) :: after /\
    run before h = Returned tt w0 /\
    on_order_event order_event w0 = Raised e w /\
    QCAlgorithm_is_market_open (OrderEvent_Symbol order_event) (host w0)
      = true /\
    OrderEvent_status order_event = FILLED /\
    self w = self w0 /\
    stores w = stores w0 /\
    host w = host w0 /\
    calls w = calls w0 ++ [IsMarketOpen (OrderEvent_Symbol order_event)].
Proof.
  intros Hrun.
  split; [intros w0; rewrite initialize_eq; reflexivity |].
  rewrite run_eq in Hrun.
  destruct (initialize_subscribes h) as [future [Hsp _]].
  destruct (run_callbacks_raised steps _ future e w Hsp Hrun)
    as (before & order_event & after & w0 & Hsteps & Hbefore & Hraise).
  pose proof Hraise as Hcase. rewrite on_order_event_eq in Hcase.
  destruct (QCAlgorithm_is_market_open _ _) eqn:Hopen;
    destruct (OrderStatus_eqb _ _) eqn:Hfilled; simpl in Hcase;
    try discriminate Hcase.
  injection Hcase as <- <-.
  split; [reflexivity |].
  exists before, order_event, after, w0.
  rewrite run_eq.
  repeat split; try assumption.
  apply OrderStatus_eqb_eq. exact Hfilled.
Qed.

End Properties.

(** * Whole runs *)

Section WholeRuns.

Context {HF : HostFramework}.

Implicit Types (w : World) (h : HostState) (steps : list Step).

(** ** The history a run writes *)

Lemma callback_log_app (future : Future) (a b : list HostCall) :
  callback_log future a -> callback_log future b ->
  callback_log future (a ++ b).
Proof.
  intros Ha Hb. induction Ha; simpl.
  - exact Hb.
  - apply log_orders. exact IHHa.
  - apply log_query. exact IHHa.
Qed.

Lemma step_log (future : Future) (s : Step) w :
  sp_500_e_mini (self w) = Some future ->
  exists new,
    calls (world_of (step s w)) = calls w ++ new /\ callback_log future new.
Proof.
  intros Hsp. destruct s as [k | [[] | order_event]]; simpl.
  - exists []. rewrite app_nil_r. split; [reflexivity | apply log_nil].
  - rewrite (make_market_and_stop_market_order_eq w future Hsp). simpl.
    eexists. split; [reflexivity |]. apply log_orders, log_nil.
  - rewrite on_order_event_eq.
    exists [IsMarketOpen (OrderEvent_Symbol order_event)].
    split; [destruct (_ && _); reflexivity | apply log_query, log_nil].
Qed.

Lemma run_callbacks_log (future : Future) steps : forall w,
  sp_500_e_mini (self w) = Some future ->
  exists new,
    calls (world_of (run_callbacks steps w)) = calls w ++ new /\
    callback_log future new.
Proof.
  induction steps as [| s rest IH]; intros w Hsp; simpl.
  - exists []. rewrite app_nil_r. split; [reflexivity | apply log_nil].
  - unfold bind.
    destruct (step_log future s w Hsp) as (n1 & Hn1 & Hlog1).
    destruct (step_frame s w) as [Hself _].
    destruct (step s w) as [[] w1 | e w1]; simpl in *.
    + assert (Hsp1 : sp_500_e_mini (self w1) = Some future) by congruence.
      destruct (IH w1 Hsp1) as (n2 & Hn2 & Hlog2).
      exists (n1 ++ n2). split.
      * rewrite Hn2, Hn1, app_assoc. reflexivity.
      * apply callback_log_app; assumption.
    + exists n1. split; assumption.
Qed.

(** Every run writes the four calls of [initialize], then what its
    callbacks write. *)
Lemma run_log h :
  exists future : Future, forall steps,
    exists new,
      calls (world_of (run steps h)) =
        [ SetStartDate 2013 10 6; SetEndDate 2013 10 12;
          AddFuture Futures.SP_500_E_MINI MINUTE true;
          ScheduleOn every_day (at_ 19 0)
                     self_make_market_and_stop_market_order ] ++ new /\
      callback_log future new.
Proof.
  destruct (initialize_subscribes h) as [future [Hsp _]].
  exists future. intros steps. rewrite run_eq.
  destruct (run_callbacks_log future steps _ Hsp) as (new & Hnew & Hlog).
  exists new. split; [| exact Hlog].
  rewrite Hnew, (initialize_eq (fresh h)). reflexivity.
Qed.

Lemma callback_log_no_setup (future : Future) (l : list HostCall) :
  callback_log future l -> filter is_setup_call l = [].
Proof. induction 1; simpl; [reflexivity | assumption | assumption]. Qed.

Lemma callback_log_orders (future : Future) (l : list HostCall) :
  callback_log future l -> Forall (order_of_script future) l.
Proof.
  induction 1; repeat constructor; simpl; eauto.
Qed.

Lemma callback_log_pairs (future : Future) (l : list HostCall) :
  callback_log future l ->
  List.length (filter is_market_order l) =
  List.length (filter is_trailing_stop_order l).
Proof. induction 1; simpl; congruence. Qed.

(** Market orders are counted by the firings of the scheduled action: never
    more of them, and as many when the run has not raised. *)
Lemma run_callbacks_market_orders (future : Future) steps : forall w,
  sp_500_e_mini (self w) = Some future ->
  (List.length (filter is_market_order (calls (world_of (run_callbacks steps w))))
   <= List.length (filter is_market_order (calls w))
      + List.length (filter is_scheduled steps))%nat /\
  (raises (run_callbacks steps w) = false ->
   List.length (filter is_market_order (calls (world_of (run_callbacks steps w))))
   = (List.length (filter is_market_order (calls w))
      + List.length (filter is_scheduled steps))%nat).
Proof.
  induction steps as [| s rest IH]; intros w Hsp; simpl.
  - split; [lia | intros _; lia].
  - unfold bind. destruct s as [k | [[] | order_event]]; simpl.
    + destruct (IH (with_host (k (host w)) w) Hsp) as [Hle Heq].
      simpl in Hle, Heq. split; [exact Hle | exact Heq].
    + rewrite (make_market_and_stop_market_order_eq w future Hsp). simpl.
      match goal with
      | |- context [run_callbacks rest ?w1] =>
          destruct (IH w1 Hsp) as [Hle Heq]
      end.
      simpl in Hle, Heq.
      rewrite filter_app, List.length_app in Hle, Heq. simpl in Hle, Heq.
      split; [lia | intros Hno; specialize (Heq Hno); lia].
    + rewrite on_order_event_eq. destruct (_ && _); simpl.
      * split; [| discriminate].
        rewrite filter_app, List.length_app. simpl. lia.
      * destruct (IH (logged (IsMarketOpen (OrderEvent_Symbol order_event)) w)
                     Hsp) as [Hle Heq].
        simpl in Hle, Heq.
        rewrite filter_app, List.length_app in Hle, Heq. simpl in Hle, Heq.
        split; [lia | intros Hno; specialize (Heq Hno); lia].
Qed.

Lemma run_callbacks_without_fill (future : Future) steps : forall w,
  sp_500_e_mini (self w) = Some future ->
  existsb delivers_fill steps = false ->
  raises (run_callbacks steps w) = false.
Proof.
  induction steps as [| s rest IH]; intros w Hsp Hnone; simpl.
  - reflexivity.
  - simpl in Hnone. apply orb_false_iff in Hnone as [Hs Hrest].
    unfold bind. destruct s as [k | [[] | order_event]]; simpl.
    + apply IH; assumption.
    + rewrite (make_market_and_stop_market_order_eq w future Hsp). simpl.
      apply IH; assumption.
    + rewrite on_order_event_eq. simpl in Hs. rewrite Hs, andb_false_r.
      apply IH; assumption.
Qed.

(** ** Orders over a run *)

(** X1: on a strategy whose [sp_500_e_mini] is still [None], the scheduled
    action raises [AttributeError] on its first line, before any call into
    the engine: no order is submitted and the world is as it was; callbacks
    that were to follow do not run. *)
Theorem scheduled_action_before_initialize w (rest : list Step) :
  sp_500_e_mini (self w) = None ->
  make_market_and_stop_market_order w =
    Raised (AttributeError "'NoneType' object has no attribute 'mapped'") w /\
  run_callbacks
    (Invoke (Scheduled self_make_market_and_stop_market_order) :: rest) w =
    Raised (AttributeError "'NoneType' object has no attribute 'mapped'") w.
Proof.
  intros Hsp.
  pose proof (make_market_and_stop_market_order_None w Hsp) as Hraise.
  split; [exact Hraise |].
  simpl. unfold bind. rewrite Hraise. reflexivity.
Qed.

(** X2: at the end of every run, returned or aborted, the market orders
    submitted are as many as the trailing-stop orders, and no more than the
    firings of the scheduled action: the run never stops between the two
    orders of a firing, and nothing else submits an order. *)
Theorem orders_come_in_pairs h steps :
  List.length (filter is_market_order (calls (world_of (run steps h)))) =
  List.length (filter is_trailing_stop_order (calls (world_of (run steps h))))
  /\
  (List.length (filter is_market_order (calls (world_of (run steps h))))
   <= List.length (filter is_scheduled steps))%nat.
Proof.
  split.
  - destruct (run_log h) as [future Hlog].
    destruct (Hlog steps) as (new & -> & Hnew).
    rewrite !filter_app, !List.length_app. simpl.
    apply (callback_log_pairs future new Hnew).
  - destruct (initialize_subscribes h) as [future [Hsp _]].
    rewrite run_eq.
    destruct (run_callbacks_market_orders future steps _ Hsp) as [Hle _].
    rewrite (initialize_eq (fresh h)) in Hle. simpl in Hle.
    rewrite (initialize_eq (fresh h)). simpl. exact Hle.
Qed.


(** X4: in every run the engine is configured once, and first: the calls
    of the run that set a date, subscribe an instrument or register a
    schedule entry are the four of [initialize], and they head the history.
    No callback subscribes or schedules anything. *)
Theorem setup_calls_made_once h steps :
  filter is_setup_call (calls (world_of (run steps h))) =
    [ SetStartDate 2013 10 6; SetEndDate 2013 10 12;
      AddFuture Futures.SP_500_E_MINI MINUTE true;
      ScheduleOn every_day (at_ 19 0) self_make_market_and_stop_market_order ]
  /\
  firstn 4 (calls (world_of (run steps h))) =
    [ SetStartDate 2013 10 6; SetEndDate 2013 10 12;
      AddFuture Futures.SP_500_E_MINI MINUTE true;
      ScheduleOn every_day (at_ 19 0) self_make_market_and_stop_market_order ].
Proof.
  destruct (run_log h) as [future Hlog].
  destruct (Hlog steps) as (new & -> & Hnew).
  split; [| reflexivity].
  rewrite filter_app, (callback_log_no_setup future new Hnew). reflexivity.
Qed.

(** X5: every order of every run is one of the two the script writes, for
    the one future [initialize] subscribed: a market order of quantity 1 or
    a trailing-stop order of quantity -1, trailing amount 5, not a
    percentage, on a contract that future is mapped to in some state of the
    engine. *)
Theorem orders_are_the_scripts h :
  exists future : Future, forall steps,
    sp_500_e_mini (self (world_of (run steps h))) = Some future /\
    Forall (order_of_script future) (calls (world_of (run steps h))).
Proof.
  destruct (initialize_subscribes h) as [future [Hsp _]].
  exists future. intros steps. rewrite run_eq. split.
  - destruct (run_callbacks_frame steps (world_of (initialize (fresh h))))
      as [Hself _].
    congruence.
  - destruct (run_callbacks_log future steps _ Hsp) as (new & -> & Hnew).
    apply Forall_app. split.
    + rewrite (initialize_eq (fresh h)). simpl.
      repeat constructor.
    + apply (callback_log_orders future new Hnew).
Qed.

(** X6: on an engine where submitting a market order leaves the mapping
    of a future as it is, the two orders of a firing are on the same
    contract, the one the future is mapped to when the action fires; the
    script reads [sp_500_e_mini.mapped] once for each.  The engine goes
    through [market_order] and [trailing_stop_order] on that contract. *)
Theorem both_orders_on_one_contract h steps w :
  (forall (future : Future) symbol quantity h',
     Future_mapped future (QCAlgorithm_market_order symbol quantity h') =
     Future_mapped future h') ->
  run steps h = Returned tt w ->
  exists (future : Future) (symbol : Symbol),
    sp_500_e_mini (self w) = Some future /\
    symbol = Future_mapped future (host w) /\
    run (steps ++ [Invoke (Scheduled self_make_market_and_stop_market_order)]) h
      = Returned tt
          {| self := self w;
             host := QCAlgorithm_trailing_stop_order symbol (-1) 5 false
                       (QCAlgorithm_market_order symbol 1 (host w));
             calls := calls w ++
                      [ MarketOrder symbol 1;
                        TrailingStopOrder symbol (-1) 5 false ];
             stores := stores w |}.
Proof.
  intros Hkeep Hrun.
  destruct (run_returned_subscribed h steps w Hrun) as [future Hsp].
  pose proof (make_market_and_stop_market_order_eq w future Hsp) as Hact.
  cbv zeta in Hact. rewrite Hkeep in Hact.
  exists future, (Future_mapped future (host w)).
  split; [exact Hsp | split; [reflexivity |]].
  rewrite run_app, Hrun. simpl. unfold bind. rewrite Hact. reflexivity.
Qed.

(** X7: a run in which no order event with status FILLED is delivered
    returns: neither [initialize] nor the scheduled action nor the handler
    on such events raises, however often they are invoked and whatever the
    engine does in between. *)
Theorem run_without_fill_returns h steps :
  existsb delivers_fill steps = false ->
  exists w, run steps h = Returned tt w.
Proof.
  intros Hnone.
  destruct (initialize_subscribes h) as [future [Hsp _]].
  pose proof (run_callbacks_without_fill future steps _ Hsp Hnone) as Hno.
  rewrite <- run_eq in Hno.
  destruct (run steps h) as [[] w | e w]; [| discriminate Hno].
  exists w. reflexivity.
Qed.

End WholeRuns.

(** * The properties on the small engine *)

#[local] Existing Instance Engine.engine.

Lemma on_order_event_open_filled_raises_witness :
  @QCAlgorithm_is_market_open Engine.engine "ESZ13"
    (host Engine.morning_world) = true /\
  Engine.event_status (Engine.fill "ESZ13" 2 (-1)) = FILLED /\
  on_order_event (HF := Engine.engine) (Engine.fill "ESZ13" 2 (-1))
    Engine.morning_world =
    Raised (Exception "Order filled during regular hours.")
           (logged (IsMarketOpen "ESZ13") Engine.morning_world) /\
  run Engine.regular_hours_fill Engine.start =
    Raised (Exception "Order filled during regular hours.")
           (logged (IsMarketOpen "ESZ13") Engine.morning_world).
Proof.
  split; [reflexivity | split; [reflexivity |]].
  destruct (on_order_event_open_filled_raises (HF := Engine.engine)
              (Engine.fill "ESZ13" 2 (-1)) Engine.morning_world
              eq_refl eq_refl) as [Hraise Hrun].
  split; [exact Hraise |].
  exact (Hrun Engine.start Engine.next_morning
           [ Activity (Engine.at_minute 1140);
             Invoke (Scheduled self_make_market_and_stop_market_order) ]
           eq_refl).
Defined.

Lemma on_order_event_market_closed_returns_witness :
  @QCAlgorithm_is_market_open Engine.engine "ESZ13"
    (host Engine.evening_world) = false /\
  on_order_event (HF := Engine.engine) (Engine.fill "ESZ13" 2 (-1))
    Engine.evening_world =
    Returned tt (logged (IsMarketOpen "ESZ13") Engine.evening_world) /\
  raises (on_order_event (HF := Engine.engine) (Engine.fill "ESZ13" 2 (-1))
            Engine.evening_world) = false.
Proof.
  split; [reflexivity |].
  destruct (on_order_event_market_closed_returns (HF := Engine.engine)
              (Engine.fill "ESZ13" 2 (-1)) Engine.evening_world eq_refl)
    as (Hret & Hno & _).
  split; [exact Hret | exact Hno].
Defined.

Lemma on_order_event_not_filled_returns_witness :
  Engine.event_status (Engine.submission "ESZ13" 3) <> FILLED /\
  @QCAlgorithm_is_market_open Engine.engine "ESZ13"
    (host Engine.morning_world) = true /\
  on_order_event (HF := Engine.engine) (Engine.submission "ESZ13" 3)
    Engine.morning_world =
    Returned tt (logged (IsMarketOpen "ESZ13") Engine.morning_world).
Proof.
  assert (Hstatus : Engine.event_status (Engine.submission "ESZ13" 3) <> FILLED)
    by (simpl; discriminate).
  split; [exact Hstatus | split; [reflexivity |]].
  exact (proj1 (on_order_event_not_filled_returns (HF := Engine.engine)
                  (Engine.submission "ESZ13" 3) Engine.morning_world Hstatus)).
Defined.

Lemma on_order_event_outcome_determined_witness :
  @QCAlgorithm_is_market_open Engine.engine "ESZ13"
    (host Engine.morning_world) =
  @QCAlgorithm_is_market_open Engine.engine "ESH14"
    (host Engine.aborted_world) /\
  Engine.event_status (Engine.fill "ESZ13" 2 (-1)) =
  Engine.event_status (Engine.fill "ESH14" 9 3) /\
  raises (on_order_event (HF := Engine.engine) (Engine.fill "ESZ13" 2 (-1))
            Engine.morning_world) =
  raises (on_order_event (HF := Engine.engine) (Engine.fill "ESH14" 9 3)
            Engine.aborted_world).
Proof.
  split; [reflexivity | split; [reflexivity |]].
  exact (proj1 (on_order_event_outcome_determined (HF := Engine.engine)
                  (Engine.fill "ESZ13" 2 (-1)) (Engine.fill "ESH14" 9 3)
                  Engine.morning_world Engine.aborted_world
                  eq_refl eq_refl)).
Defined.

Lemma scheduled_action_submits_two_orders_witness :
  run Engine.first_trigger Engine.start = Returned tt Engine.trigger_world /\
  run (Engine.first_trigger ++
       [Invoke (Scheduled self_make_market_and_stop_market_order)])
      Engine.start =
  Returned tt
    {| self := {| sp_500_e_mini := Some Futures.SP_500_E_MINI |};
       host := {| Engine.minute_of_day := 1140;
                  Engine.front_contract := "ESZ13";
                  Engine.orders_received := 2 |};
       calls := calls Engine.trigger_world ++
                [ MarketOrder "ESZ13" 1;
                  TrailingStopOrder "ESZ13" (-1) 5 false ];
       stores := [Futures.SP_500_E_MINI] |}.
Proof.
  split; [reflexivity |].
  destruct (scheduled_action_submits_two_orders (HF := Engine.engine)
              Engine.start Engine.first_trigger Engine.trigger_world eq_refl)
    as (future & _ & Hfiring).
  cbv zeta in Hfiring. destruct Hfiring as [_ Hrun].
  exact Hrun.
Defined.

Lemma trailing_stop_order_fixed_offset_witness :
  run Engine.first_evening Engine.start = Returned tt Engine.evening_world /\
  run (Engine.first_evening ++
       [Invoke (Scheduled self_make_market_and_stop_market_order)])
      Engine.start =
  Returned tt
    {| self := self Engine.evening_world;
       host := QCAlgorithm_trailing_stop_order "ESZ13" (-1) 5 false
                 {| Engine.minute_of_day := 1140;
                    Engine.front_contract := "ESZ13";
                    Engine.orders_received := 3 |};
       calls := calls Engine.evening_world ++
                [ MarketOrder "ESZ13" 1;
                  TrailingStopOrder "ESZ13" (-1) 5 false ];
       stores := stores Engine.evening_world |}.
Proof.
  split; [reflexivity |].
  destruct (trailing_stop_order_fixed_offset (HF := Engine.engine)
              Engine.start Engine.first_evening Engine.evening_world eq_refl)
    as (future & symbol & _ & Hfiring).
  cbv zeta in Hfiring. destruct Hfiring as (-> & Hrun & _).
  exact Hrun.
Defined.

Lemma on_order_event_is_the_single_error_path_witness :
  run Engine.regular_hours_fill Engine.start =
    Raised (Exception "Order filled during regular hours.")
           Engine.aborted_world /\
  exists before order_event after w0,
    Engine.regular_hours_fill =
      before ++ Invoke (OrderNotification order_event) :: after /\
    run before Engine.start = Returned tt w0 /\
    self Engine.aborted_world = self w0 /\
    calls Engine.aborted_world =
      calls w0 ++ [IsMarketOpen (Engine.event_symbol order_event)].
Proof.
  split; [reflexivity |].
  destruct (on_order_event_is_the_single_error_path (HF := Engine.engine)
              Engine.start Engine.regular_hours_fill
              (Exception "Order filled during regular hours.")
              Engine.aborted_world eq_refl)
    as (_ & _ & before & order_event & after & w0 & Hsteps & Hbefore & _ & _
        & _ & Hself & _ & _ & Hcalls).
  exists before, order_event, after, w0.
  split; [exact Hsteps | split; [exact Hbefore | split; assumption]].
Defined.

Lemma scheduled_action_before_initialize_witness :
  sp_500_e_mini (self (fresh (HF := Engine.engine) Engine.start)) = None /\
  run_callbacks
    [ Invoke (Scheduled self_make_market_and_stop_market_order);
      Invoke (OrderNotification (Engine.submission "ESZ13" 1)) ]
    (fresh (HF := Engine.engine) Engine.start) =
    Raised (AttributeError "'NoneType' object has no attribute 'mapped'")
           (fresh (HF := Engine.engine) Engine.start).
Proof.
  split; [reflexivity |].
  exact (proj2 (scheduled_action_before_initialize (HF := Engine.engine) (fresh (HF := Engine.engine) Engine.start)
                  [ Invoke (OrderNotification (Engine.submission "ESZ13" 1)) ]
                  eq_refl)).
Defined.


Lemma both_orders_on_one_contract_witness :
  (forall (future : Futures.Indices) (symbol : string) (quantity : Z)
          (h' : Engine.State),
     Engine.front_contract (Engine.receive_order h') =
     Engine.front_contract h') /\
  run Engine.first_trigger Engine.start = Returned tt Engine.trigger_world /\
  run (Engine.first_trigger ++
       [Invoke (Scheduled self_make_market_and_stop_market_order)])
      Engine.start =
  Returned tt
    {| self := self Engine.trigger_world;
       host := {| Engine.minute_of_day := 1140;
                  Engine.front_contract := "ESZ13";
                  Engine.orders_received := 2 |};
       calls := calls Engine.trigger_world ++
                [ MarketOrder "ESZ13" 1;
                  TrailingStopOrder "ESZ13" (-1) 5 false ];
       stores := stores Engine.trigger_world |}.
Proof.
  split; [intros; reflexivity | split; [reflexivity |]].
  destruct (both_orders_on_one_contract (HF := Engine.engine)
              Engine.start Engine.first_trigger Engine.trigger_world
              (fun _ _ _ _ => eq_refl) eq_refl)
    as (future & symbol & _ & -> & Hrun).
  exact Hrun.
Defined.

Lemma run_without_fill_returns_witness :
  existsb delivers_fill Engine.quiet_evening = false /\
  exists w, run Engine.quiet_evening Engine.start = Returned tt w.
Proof.
  split; [reflexivity |].
  exact (run_without_fill_returns (HF := Engine.engine) Engine.start Engine.quiet_evening eq_refl).
Defined.
